(** * whatsapp-sender-hub: the template sender form (src/pages/Index.tsx)

    A shallow embedding of the validation schema, of the form's input
    handlers and of the [onSubmit] handler, with the properties of the
    specification stated over them.

    JavaScript strings are modelled as [string]; every test the program
    makes on characters is a test for the ASCII digits, so the encoding of
    the other characters does not matter. *)

From Stdlib Require Import List String Ascii Bool Arith NArith ZArith Lia.
From Stdlib Require Import DecimalString DecimalN.
Import ListNotations.

#[local] Set Warnings "-register-all".

Local Open Scope string_scope.
Local Open Scope list_scope.

(* ===================================================================== *)
(** ** Regular expressions

    The fragment of the JavaScript pattern language that the pattern of the
    schema, [/^55\d{10,11}$/], is written in, with the
    backtracking reading of the language: matching a pattern at a position
    gives the list of positions at which a match can end. *)

Module Regex.

Inductive regex : Type :=
| Bol                                   (* ^   (no multiline flag) *)
| Eol                                   (* $   (no multiline flag) *)
| Chr (c : ascii)                       (* a literal character *)
| Digit                                 (* \d *)
| Seq (r1 r2 : regex)                   (* r1 r2 *)
| Rep (r : regex) (lo hi : nat).        (* r{lo,hi} *)

(** A position in the input: the index reached and what is left to read. *)
Definition cursor : Type := (nat * list ascii)%type.

(** [\d] is [0-9]. *)
Definition is_digit (c : ascii) : bool :=
  let n := nat_of_ascii c in ((48 <=? n) && (n <=? 57))%nat.

(** [\D] is its complement. *)
Definition is_non_digit (c : ascii) : bool := negb (is_digit c).

Definition read (p : ascii -> bool) (st : cursor) : list cursor :=
  match snd st with
  | c :: rest => if p c then [(S (fst st), rest)] else []
  | [] => []
  end.

(** [r{lo,hi}], greedy: one more iteration is tried before stopping. *)
Fixpoint repeat_between (step : cursor -> list cursor) (lo hi : nat)
    (st : cursor) : list cursor :=
  match hi with
  | O => if (lo =? 0)%nat then [st] else []
  | S hi' =>
      flat_map (repeat_between step (pred lo) hi') (step st)
      ++ (if (lo =? 0)%nat then [st] else [])
  end.

Fixpoint run (r : regex) (st : cursor) : list cursor :=
  match r with
  | Bol => if (fst st =? 0)%nat then [st] else []
  | Eol => match snd st with [] => [st] | _ :: _ => [] end
  | Chr c => read (Ascii.eqb c) st
  | Digit => read is_digit st
  | Seq r1 r2 => flat_map (run r2) (run r1 st)
  | Rep r' lo hi => repeat_between (run r') lo hi st
  end.

Definition matches_at (r : regex) (s : list ascii) (i : nat) : bool :=
  match run r (i, skipn i s) with
  | [] => false
  | _ :: _ => true
  end.

(** [RegExp.prototype.test]: the pattern is tried at every start index. *)
Definition test (r : regex) (s : string) : bool :=
  let l := list_ascii_of_string s in
  existsb (matches_at r l) (seq 0 (S (List.length l))).

(** [String.prototype.replace] with a global pattern made of one character
    class, as in [/\D/g]: every character of the class is replaced. *)
Fixpoint replace_all (p : ascii -> bool) (by_ : string) (s : string) : string :=
  match s with
  | EmptyString => EmptyString
  | String c rest =>
      if p c then (by_ ++ replace_all p by_ rest)%string
      else String c (replace_all p by_ rest)
  end.

End Regex.

(* ===================================================================== *)
(** ** The form: schema, configuration and input handlers *)

Record FormValues : Type := {
  template : string;
  phoneNumberId : string;
  recipientPhone : string
}.

Inductive FieldName : Type := FTemplate | FPhoneNumberId | FRecipientPhone.

(** A validation issue, as zod reports it: the field and the message. *)
Definition Issue : Type := (FieldName * string)%type.

(** [z.string().min(n, { message })] *)
Definition min_check (n : nat) (message : string) (field : FieldName)
    (s : string) : list Issue :=
  if (String.length s <? n)%nat then [(field, message)] else [].

(** [.regex(re, { message })] *)
Definition regex_check (re : Regex.regex) (message : string)
    (field : FieldName) (s : string) : list Issue :=
  if Regex.test re s then [] else [(field, message)].

(** [/^55\d{10,11}$/] *)
Definition phone_pattern : Regex.regex :=
  Regex.Seq Regex.Bol
    (Regex.Seq (Regex.Chr "5")
       (Regex.Seq (Regex.Chr "5")
          (Regex.Seq (Regex.Rep Regex.Digit 10 11) Regex.Eol))).

Definition msg_template : string := "Por favor, selecione um template".
Definition msg_phone_id : string := "Por favor, selecione um ID de telefone".
Definition msg_recipient_empty : string :=
  "Por favor, insira o número do destinatário".
Definition msg_recipient_format : string :=
  "Formato inválido. Use: 5599999999999 (somente números)".

(** The checks of a zod string run one after the other and all report. *)
Definition recipientPhone_issues (s : string) : list Issue :=
  min_check 1 msg_recipient_empty FRecipientPhone s
  ++ regex_check phone_pattern msg_recipient_format FRecipientPhone s.

(** [formSchema] *)
Definition formSchema (v : FormValues) : list Issue :=
  min_check 1 msg_template FTemplate (template v)
  ++ min_check 1 msg_phone_id FPhoneNumberId (phoneNumberId v)
  ++ recipientPhone_issues (recipientPhone v).

Definition passes (issues : list Issue) : bool :=
  match issues with [] => true | _ :: _ => false end.

Record SelectOption : Type := { value : string; label : string }.

Definition WEBHOOK_URL : string := "https://example-n8n-webhook-url.com/".

Definition TEMPLATES : list SelectOption :=
  [ {| value := "hello_world"; label := "hello_world" |};
    {| value := "order_update"; label := "order_update" |};
    {| value := "appointment_reminder"; label := "appointment_reminder" |} ].

Definition PHONE_IDS : list SelectOption :=
  [ {| value := "785310631336841"; label := "785310631336841" |};
    {| value := "123456789012345"; label := "123456789012345" |} ].

Definition defaultValues : FormValues :=
  {| template := ""; phoneNumberId := ""; recipientPhone := "" |}.

(** What the user can do to the fields: pick the i-th item a select
    renders (one item per configured option), or change the text of the
    recipient input to [raw]. *)
Inductive UserAction : Type :=
| PickTemplate (i : nat)
| PickPhoneId (i : nat)
| TypeRecipient (raw : string).

(** The recipient input's [onChange]:
    [field.onChange(e.target.value.replace(/\D/g, ""))]. *)
Definition recipient_onChange (raw : string) : string :=
  Regex.replace_all Regex.is_non_digit "" raw.

Definition act (f : FormValues) (a : UserAction) : FormValues :=
  match a with
  | PickTemplate i =>
      match nth_error TEMPLATES i with
      | Some o => {| template := value o;
                     phoneNumberId := phoneNumberId f;
                     recipientPhone := recipientPhone f |}
      | None => f
      end
  | PickPhoneId i =>
      match nth_error PHONE_IDS i with
      | Some o => {| template := template f;
                     phoneNumberId := value o;
                     recipientPhone := recipientPhone f |}
      | None => f
      end
  | TypeRecipient raw =>
      {| template := template f;
         phoneNumberId := phoneNumberId f;
         recipientPhone := recipient_onChange raw |}
  end.

(** The field values after a sequence of user actions on the fresh form. *)
Definition form_after (actions : list UserAction) : FormValues :=
  fold_left act actions defaultValues.

(** The specification's wording of the recipient rule: the literal prefix
    "55" followed by 10 to 11 digits. *)
Definition digits_only (s : string) : Prop :=
  Forall (fun c => Regex.is_digit c = true) (list_ascii_of_string s).

Definition is_55_then_digits (s : string) : Prop :=
  exists d : string,
    s = ("55" ++ d)%string /\ digits_only d /\ (10 <= String.length d <= 11)%nat.

(** What a select can hold: the initial empty string, or the value of one
    of the options it renders. *)
Definition selectable (options : list SelectOption) (s : string) : Prop :=
  s = "" \/ In s (map value options).

(* ===================================================================== *)
(** ** The JavaScript values the handler touches *)

(** What the program's behaviour takes from the JavaScript engine and does
    not fix itself: the Number type (a JSON number is only ever tested for
    truthiness and converted to a string), and the messages of the two
    TypeErrors the engine can raise inside [onSubmit]. *)
Class Engine : Type := {
  number : Type;
  number_is_zero : number -> bool;          (* +0 and -0; JSON has no NaN *)
  number_to_string : number -> string;      (* Number::toString *)
  null_property_message : string;           (* reading a property of null *)
  not_primitive_message : string            (* ToPrimitive finds no method *)
}.

(** An engine to run the model on: integer-valued numbers, V8's messages. *)
Definition reference_engine : Engine := {|
  number := Z;
  number_is_zero := Z.eqb 0;
  number_to_string := fun z => NilEmpty.string_of_int (Z.to_int z);
  null_property_message := "Cannot read properties of null (reading 'message')";
  not_primitive_message := "Cannot convert object to primitive value"
|}.

(** A thrown value: an instance of [Error] (TypeError, SyntaxError, ... are
    instances too) with its [message], or any other value. *)
Inductive thrown : Type :=
| ErrorInstance (message : string)
| NotAnError.

(** How an evaluation ends. *)
Inductive completion (A : Type) : Type :=
| Normal (a : A)
| Abrupt (e : thrown).
Arguments Normal {A} a.
Arguments Abrupt {A} e.

Section Submission.
Context {E : Engine}.

(** A value produced by [JSON.parse]; [JNull] is JavaScript's [null]. An
    object is the list of its own properties, keys distinct. *)
Inductive json : Type :=
| JNull
| JBool (b : bool)
| JNum (n : number)
| JStr (s : string)
| JArr (items : list json)
| JObj (fields : list (string * json)).

Fixpoint own_property (key : string) (fields : list (string * json))
    : option json :=
  match fields with
  | [] => None
  | (k, v) :: rest => if String.eqb k key then Some v else own_property key rest
  end.

(** [data.key]: [None] is [undefined]. Reading a property of [null] throws
    a TypeError; neither [Object.prototype] nor the prototypes of arrays and
    of primitives have a [message]. *)
Definition get_message (data : json) : completion (option json) :=
  match data with
  | JNull => Abrupt (ErrorInstance null_property_message)
  | JObj fields => Normal (own_property "message" fields)
  | _ => Normal None
  end.

(** ToBoolean, on the operand of [||]. *)
Definition truthy (v : option json) : bool :=
  match v with
  | None => false
  | Some JNull => false
  | Some (JBool b) => b
  | Some (JNum n) => negb (number_is_zero n)
  | Some (JStr s) => negb (String.eqb s "")
  | Some (JArr _) => true
  | Some (JObj _) => true
  end.

(** ToString, as [new Error(message)] applies it. An array is joined with
    commas, [null] elements giving the empty string. A plain object gives
    "[object Object]", unless an own property shadows [toString]: no JSON
    value is callable, and ToPrimitive then throws a TypeError. *)
Fixpoint to_string (v : json) : completion string :=
  match v with
  | JNull => Normal "null"
  | JBool b => Normal (if b then "true" else "false")
  | JNum n => Normal (number_to_string n)
  | JStr s => Normal s
  | JArr items =>
      (fix join (l : list json) (first : bool) : completion string :=
         match l with
         | [] => Normal ""
         | x :: rest =>
             match (match x with JNull => Normal "" | _ => to_string x end) with
             | Abrupt e => Abrupt e
             | Normal sx =>
                 match join rest false with
                 | Abrupt e => Abrupt e
                 | Normal sr =>
                     Normal ((if first then "" else ",") ++ sx ++ sr)%string
                 end
             end
         end) items true
  | JObj fields =>
      match own_property "toString" fields with
      | Some _ => Abrupt (ErrorInstance not_primitive_message)
      | None => Normal "[object Object]"
      end
  end.

(* ===================================================================== *)
(** ** Component state, effects and the environment *)

Record RequestInit : Type := {
  method : string;
  headers : list (string * string);
  body : json                (* the value handed to [JSON.stringify] *)
}.

Record ToastArgs : Type := {
  title : string;
  description : string;
  variant : option string
}.

(** What [onSubmit] does to the outside, in order. *)
Inductive Event : Type :=
| SetIsSubmitting (b : bool)
| SetError (e : option string)
| SetSentPayload (p : json)
| SetWebhookResponse (r : json)
| Fetch (url : string) (init : RequestInit)
| Toast (t : ToastArgs).

(** The four [useState] cells; [JNull] and [None] are [null]. *)
Record UIState : Type := {
  isSubmitting : bool;
  sentPayload : json;
  webhookResponse : json;
  error : option string
}.

Definition initial_state : UIState :=
  {| isSubmitting := false; sentPayload := JNull;
     webhookResponse := JNull; error := None |}.

Definition apply_event (s : UIState) (ev : Event) : UIState :=
  match ev with
  | SetIsSubmitting b =>
      {| isSubmitting := b; sentPayload := sentPayload s;
         webhookResponse := webhookResponse s; error := error s |}
  | SetError e =>
      {| isSubmitting := isSubmitting s; sentPayload := sentPayload s;
         webhookResponse := webhookResponse s; error := e |}
  | SetSentPayload p =>
      {| isSubmitting := isSubmitting s; sentPayload := p;
         webhookResponse := webhookResponse s; error := error s |}
  | SetWebhookResponse r =>
      {| isSubmitting := isSubmitting s; sentPayload := sentPayload s;
         webhookResponse := r; error := error s |}
  | Fetch _ _ => s
  | Toast _ => s
  end.

Definition replay (events : list Event) (s : UIState) : UIState :=
  fold_left apply_event events s.

(** [response.json()]: the parsed body, or what the parser throws. *)
Inductive body_result : Type :=
| Parsed (data : json)
| ParseThrows (e : thrown).

Record Response : Type := {
  status : N;
  json_result : body_result
}.

(** [response.ok]: the status is in the range 200-299. *)
Definition ok (r : Response) : bool :=
  ((200 <=? status r) && (status r <=? 299))%N.

Inductive fetch_result : Type :=
| Rejected (e : thrown)
| Resolved (r : Response).

(** The world around one submission: the clock, read through
    [new Date().toISOString()], and the answer of the network. *)
Record Env : Type := {
  clock : string;
  network : string -> RequestInit -> fetch_result
}.

(** Effectful code: the events emitted, then how the evaluation ended. *)
Definition Eff (A : Type) : Type := (list Event * completion A)%type.

Definition ret {A} (a : A) : Eff A := ([], Normal a).

Definition bind {A B} (m : Eff A) (k : A -> Eff B) : Eff B :=
  match m with
  | (t, Normal a) => let (t', r) := k a in (t ++ t', r)
  | (t, Abrupt e) => (t, Abrupt e)
  end.

Definition emit (ev : Event) : Eff unit := ([ev], Normal tt).

Definition throw {A} (e : thrown) : Eff A := ([], Abrupt e).

Definition lift {A} (c : completion A) : Eff A := ([], c).

(** [try { body } catch (err) { handler } finally { fin }] *)
Definition try_catch_finally (body : Eff unit) (handler : thrown -> Eff unit)
    (fin : Eff unit) : Eff unit :=
  let (t1, r1) := body in
  let (t2, r2) := match r1 with
                  | Normal a => ([], Normal a)
                  | Abrupt e => handler e
                  end in
  let (t3, r3) := fin in
  (t1 ++ t2 ++ t3, match r3 with Normal _ => r2 | Abrupt e => Abrupt e end).

Notation "x <- m ;; k" := (bind m (fun x => k))
  (at level 61, m at next level, right associativity).
Notation "m ;; k" := (bind m (fun _ => k))
  (at level 61, right associativity).

(** [await fetch(url, init)]: the call is issued, then the network answers. *)
Definition fetch (env : Env) (url : string) (init : RequestInit)
    : Eff Response :=
  emit (Fetch url init) ;;
  match network env url init with
  | Rejected e => throw e
  | Resolved r => ret r
  end.

(** [await response.json()] *)
Definition response_json (r : Response) : Eff json :=
  match json_result r with
  | Parsed data => ret data
  | ParseThrows e => throw e
  end.

(** The text of a status code in a template literal. *)
Definition status_text (n : N) : string :=
  NilEmpty.string_of_uint (N.to_uint n).

(** The object literal bound to [payload], as a function of what it reads. *)
Definition payload (values : FormValues) (sent_at : string) : json :=
  JObj [ ("messaging_product", JStr "whatsapp");
         ("from_phone_number_id", JStr (phoneNumberId values));
         ("to", JStr (recipientPhone values));
         ("type", JStr "template");
         ("template",
          JObj [ ("name", JStr (template values));
                 ("language", JObj [ ("code", JStr "en_US") ]) ]);
         ("debug",
          JObj [ ("ui_origin", JStr "lovable-web-sender");
                 ("sent_at", JStr sent_at) ]) ].

Definition success_toast : ToastArgs :=
  {| title := "Mensagem enviada com sucesso!";
     description := "O template foi enviado para o webhook.";
     variant := None |}.

Definition failure_toast (errorMessage : string) : ToastArgs :=
  {| title := "Erro ao enviar";
     description := errorMessage;
     variant := Some "destructive" |}.

(** [new Error(data.message || `Erro: ${response.status}`)]: the error
    built, or what building it throws. [||] keeps its left operand when it
    is truthy, which [undefined] is not, and [new Error] applies ToString to
    the operand kept. *)
Definition failure_error (data : json) (r : Response) : completion thrown :=
  match get_message data with
  | Abrupt e => Abrupt e
  | Normal m =>
      match (if truthy m
             then match m with Some v => to_string v | None => Normal "" end
             else Normal ("Erro: " ++ status_text (status r))%string) with
      | Abrupt e => Abrupt e
      | Normal text => Normal (ErrorInstance text)
      end
  end.

(** The second argument of [fetch]. *)
Definition request (payload : json) : RequestInit :=
  {| method := "POST";
     headers := [("Content-Type", "application/json")];
     body := payload |}.

(** [err instanceof Error ? err.message : "Erro desconhecido ao enviar"] *)
Definition errorMessage (err : thrown) : string :=
  match err with
  | ErrorInstance message => message
  | NotAnError => "Erro desconhecido ao enviar"
  end.

(** [onSubmit] *)
Definition onSubmit (env : Env) (values : FormValues) : Eff unit :=
  emit (SetIsSubmitting true) ;;
  emit (SetError None) ;;
  emit (SetSentPayload JNull) ;;
  emit (SetWebhookResponse JNull) ;;
  let payload := payload values (clock env) in
  emit (SetSentPayload payload) ;;
  try_catch_finally
    (response <- fetch env WEBHOOK_URL (request payload) ;;
     data <- response_json response ;;
     (if negb (ok response)
      then err <- lift (failure_error data response) ;; throw err
      else ret tt) ;;
     emit (SetWebhookResponse data) ;;
     emit (Toast success_toast))
    (fun err =>
       let errorMessage := errorMessage err in
       emit (SetError (Some errorMessage)) ;;
       emit (Toast (failure_toast errorMessage)))
    (emit (SetIsSubmitting false)).

(** The events every attempt starts with, up to the call of [fetch], and
    the two ways it goes on from there. *)
Definition opening (env : Env) (v : FormValues) : list Event :=
  [ SetIsSubmitting true; SetError None; SetSentPayload JNull;
    SetWebhookResponse JNull; SetSentPayload (payload v (clock env));
    Fetch WEBHOOK_URL (request (payload v (clock env))) ].

Definition succeeding (env : Env) (v : FormValues) (data : json) : Eff unit :=
  (opening env v
   ++ [ SetWebhookResponse data; Toast success_toast; SetIsSubmitting false ],
   Normal tt).

Definition failing (env : Env) (v : FormValues) (e : thrown) : Eff unit :=
  (opening env v
   ++ [ SetError (Some (errorMessage e));
        Toast (failure_toast (errorMessage e)); SetIsSubmitting false ],
   Normal tt).

(** [form.handleSubmit(onSubmit)]: the resolver runs the schema on the
    field values, and [onSubmit] is called only when it reports nothing. *)
Definition handleSubmit (env : Env) (values : FormValues) : Eff unit :=
  if passes (formSchema values) then onSubmit env values else ret tt.

(** The component along one attempt: the events the attempt emits and the
    state they leave, from the state [s] it starts in. *)
Definition trace (env : Env) (values : FormValues) : list Event :=
  fst (onSubmit env values).

Definition final_state (env : Env) (values : FormValues) (s : UIState)
    : UIState :=
  replay (trace env values) s.

(** The states the component goes through strictly inside a run of
    events: after the first event and before the last. *)
Definition states_inside (events : list Event) (s : UIState) : list UIState :=
  map (fun k => replay (firstn k events) s)
      (seq 1 (List.length events - 1)).

(** A session: submit requests made one after the other, each with the
    field values and the surroundings of its moment. *)
Definition session_trace (attempts : list (Env * FormValues)) : list Event :=
  flat_map (fun a => fst (handleSubmit (fst a) (snd a))) attempts.

(** The notifications among the events. *)
Definition toasts (events : list Event) : list ToastArgs :=
  flat_map (fun ev => match ev with Toast t => [t] | _ => [] end) events.

(* ===================================================================== *)
(** ** What the component renders

    The parts of the returned JSX that depend on the state: the submit
    button and the results section with its three blocks. *)

(** A child position of the tree: nothing, a text, or an element. *)
Inductive Rendered (A : Type) : Type :=
| Hidden
| AsText (s : string)
| Element (a : A).
Arguments Hidden {A}.
Arguments AsText {A} s.
Arguments Element {A} a.

(** [{value && (element)}]: the element when the value is truthy, and the
    value itself otherwise; React draws nothing for [null], [false] and the
    empty string, and draws a number as its text. *)
Definition and_element {A} (v : json) (element : A) : Rendered A :=
  if truthy (Some v) then Element element
  else match v with
       | JNum n => AsText (number_to_string n)
       | _ => Hidden
       end.

(** [a || b] *)
Definition or_value (a b : json) : json :=
  if truthy (Some a) then a else b.

(** The [error] cell as a value: a string or [null]. *)
Definition error_value (e : option string) : json :=
  match e with
  | Some text => JStr text
  | None => JNull
  end.

Record SubmitButton : Type := {
  disabled : bool;
  spinner : bool;            (* the Loader2 icon *)
  caption : string
}.

(** The blocks show [JSON.stringify(sentPayload, null, 2)],
    [JSON.stringify(webhookResponse, null, 2)] and [error]. *)
Record Results : Type := {
  payload_block : Rendered json;
  response_block : Rendered json;
  error_block : Rendered (option string)
}.

Record View : Type := {
  submit_button : SubmitButton;
  results : Rendered Results
}.

Definition render (s : UIState) : View :=
  {| submit_button :=
       {| disabled := isSubmitting s;
          spinner := isSubmitting s;
          caption := if isSubmitting s then "Enviando..."
                     else "Enviar Mensagem" |};
     results :=
       and_element
         (or_value (or_value (sentPayload s) (webhookResponse s))
                   (error_value (error s)))
         {| payload_block := and_element (sentPayload s) (sentPayload s);
            response_block :=
              and_element (webhookResponse s) (webhookResponse s);
            error_block := and_element (error_value (error s)) (error s) |}
  |}.

End Submission.

Arguments Hidden {A}.
Arguments AsText {A} s.
Arguments Element {A} a.

(* ===================================================================== *)
(** ** The recipient pattern *)

Module RegexFacts.
Import Regex.

Lemma nonempty_iff_in {A} (l : list A) :
  match l with [] => false | _ :: _ => true end = true <-> exists x, In x l.
Proof.
  destruct l as [|a l]; simpl; split.
  - discriminate.
  - intros [x []].
  - intros _. exists a. now left.
  - reflexivity.
Qed.

(** [\d{lo,hi}] ends exactly after a run of [lo] to [hi] digits. *)
Lemma repeat_digits_spec hi : forall lo p l q l',
  In (q, l') (repeat_between (run Digit) lo hi (p, l)) <->
  exists d, l = d ++ l' /\ Forall (fun c => is_digit c = true) d
            /\ lo <= List.length d <= hi /\ q = p + List.length d.
Proof.
  induction hi as [|hi IH]; intros lo p l q l'.
  - simpl. destruct (Nat.eqb_spec lo 0) as [-> | Hlo]; simpl; split.
    + intros [H | []]. inversion H; subst.
      exists []. simpl. repeat split; auto.
    + intros (d & -> & _ & Hlen & ->).
      destruct d; simpl in *; [left; f_equal; lia | lia].
    + intros [].
    + intros (d & _ & _ & Hlen & _). lia.
  - simpl. rewrite in_app_iff. split.
    + intros [H | H].
      * destruct l as [|c t]; [destruct H|].
        unfold read in H. simpl in H.
        destruct (is_digit c) eqn:Hc; [|destruct H].
        simpl in H. rewrite app_nil_r in H.
        apply IH in H. destruct H as (d & -> & Hd & Hlen & ->).
        exists (c :: d). simpl. repeat split; auto; lia.
      * destruct (Nat.eqb_spec lo 0) as [-> | Hlo]; [|destruct H].
        destruct H as [H | []]. inversion H; subst.
        exists []. simpl. repeat split; auto; lia.
    + intros (d & -> & Hd & Hlen & ->).
      destruct d as [|c d].
      * right. assert (lo = 0) by (simpl in Hlen; lia). subst. simpl.
        left. f_equal. lia.
      * left. inversion Hd as [|? ? Hc Hd']; subst.
        unfold read. simpl. rewrite Hc. simpl. rewrite app_nil_r.
        apply IH. exists d. simpl in Hlen. repeat split; auto; lia.
Qed.

(** [^] lets the pattern match at the first index only. *)
Lemma anchored_only_at_start r l i :
  matches_at (Seq Bol r) l (S i) = false.
Proof. reflexivity. Qed.

Lemma existsb_anchored r l n k :
  existsb (matches_at (Seq Bol r) l) (seq (S k) n) = false.
Proof.
  revert k. induction n as [|n IH]; intros k; simpl; [reflexivity|].
  apply IH.
Qed.

Lemma test_anchored r s :
  test (Seq Bol r) s =
  match run r (0, list_ascii_of_string s) with [] => false | _ :: _ => true end.
Proof.
  unfold test. cbv zeta. rewrite <- cons_seq.
  change (existsb ?f (?a :: ?t)) with (f a || existsb f t)%bool.
  rewrite existsb_anchored, orb_false_r.
  unfold matches_at. simpl. now rewrite app_nil_r.
Qed.

Lemma length_list_ascii_of_string s :
  List.length (list_ascii_of_string s) = String.length s.
Proof. induction s as [|c s IH]; simpl; congruence. Qed.

Lemma list_ascii_of_string_app s t :
  list_ascii_of_string (s ++ t) =
  list_ascii_of_string s ++ list_ascii_of_string t.
Proof. induction s as [|c s IH]; simpl; congruence. Qed.

End RegexFacts.

Module PhonePattern.
Import Regex RegexFacts.

Lemma run_seq r1 r2 st x :
  In x (run (Seq r1 r2) st) <-> exists y, In y (run r1 st) /\ In x (run r2 y).
Proof. change (run (Seq r1 r2) st) with (flat_map (run r2) (run r1 st)).
  apply in_flat_map. Qed.

Lemma run_chr c p l y :
  In y (run (Chr c) (p, l)) <-> exists t, l = c :: t /\ y = (S p, t).
Proof.
  change (run (Chr c) (p, l)) with (read (Ascii.eqb c) (p, l)).
  unfold read. simpl. destruct l as [|a t].
  - split; [intros [] | intros (t & H & _); discriminate].
  - destruct (Ascii.eqb_spec c a) as [-> | Hne]; simpl; split.
    + intros [<- | []]. now exists t.
    + intros (t' & H & ->). inversion H; subst. now left.
    + intros [].
    + intros (t' & H & _). inversion H; subst. now contradiction Hne.
Qed.

Lemma run_eol p l y : In y (run Eol (p, l)) <-> l = [] /\ y = (p, []).
Proof.
  simpl. destruct l; simpl; split.
  - intros [<- | []]. auto.
  - intros [_ ->]. now left.
  - intros [].
  - intros [H _]. discriminate.
Qed.

(** [\d{10,11}$] at a position: what is left is 10 or 11 digits. *)
Lemma run_digits_to_end p l x :
  In x (run (Seq (Rep Digit 10 11) Eol) (p, l)) <->
  Forall (fun c => is_digit c = true) l
  /\ 10 <= List.length l <= 11 /\ x = (p + List.length l, []).
Proof.
  rewrite run_seq. split.
  - intros ([q l'] & Hrep & Heol).
    change (run (Rep Digit 10 11) (p, l))
      with (repeat_between (run Digit) 10 11 (p, l)) in Hrep.
    apply repeat_digits_spec in Hrep. apply run_eol in Heol.
    destruct Hrep as (d & -> & Hd & Hlen & ->), Heol as [-> ->].
    rewrite app_nil_r. auto.
  - intros (Hd & Hlen & ->). exists (p + List.length l, []). split.
    + change (run (Rep Digit 10 11) (p, l))
        with (repeat_between (run Digit) 10 11 (p, l)).
      apply repeat_digits_spec. exists l. rewrite app_nil_r. auto.
    + apply run_eol. auto.
Qed.

(** The pattern of the schema accepts the strings "55" + 10 to 11 digits,
    and no other. *)
Lemma phone_pattern_spec s :
  test phone_pattern s = true <-> is_55_then_digits s.
Proof.
  unfold phone_pattern. rewrite test_anchored, nonempty_iff_in. split.
  - intros (x & H).
    apply run_seq in H. destruct H as (y1 & H1 & H).
    apply run_chr in H1. destruct H1 as (t1 & E1 & ->).
    apply run_seq in H. destruct H as (y2 & H2 & H).
    apply run_chr in H2. destruct H2 as (t2 & -> & ->).
    apply run_digits_to_end in H. destruct H as (Hd & Hlen & _).
    exists (string_of_list_ascii t2). repeat split.
    + rewrite <- (string_of_list_ascii_of_string s), E1. reflexivity.
    + unfold digits_only. now rewrite list_ascii_of_string_of_list_ascii.
    + rewrite <- length_list_ascii_of_string,
        list_ascii_of_string_of_list_ascii. lia.
    + rewrite <- length_list_ascii_of_string,
        list_ascii_of_string_of_list_ascii. lia.
  - intros (d & -> & Hd & Hlen).
    exists (2 + List.length (list_ascii_of_string d), []).
    apply run_seq. exists (1, list_ascii_of_string ("5" ++ d)). split.
    { apply run_chr. eexists. split; reflexivity. }
    apply run_seq. exists (2, list_ascii_of_string d). split.
    { apply run_chr. eexists. split; reflexivity. }
    apply run_digits_to_end. repeat split; auto;
      rewrite length_list_ascii_of_string; lia.
Qed.

Lemma replace_non_digits_digits_only raw :
  digits_only (replace_all is_non_digit "" raw).
Proof.
  unfold digits_only.
  induction raw as [|c raw IH]; simpl; [constructor|].
  unfold is_non_digit at 1. destruct (is_digit c) eqn:Hc; simpl; auto.
Qed.

Lemma replace_non_digits_keeps_digits raw :
  list_ascii_of_string (replace_all is_non_digit "" raw)
  = filter is_digit (list_ascii_of_string raw).
Proof.
  induction raw as [|c raw IH]; simpl; [reflexivity|].
  unfold is_non_digit at 1. destruct (is_digit c); simpl; congruence.
Qed.

End PhonePattern.

(* ===================================================================== *)
(** ** The schema and the input handlers *)

Lemma passes_app (a b : list Issue) :
  passes (a ++ b) = (passes a && passes b)%bool.
Proof. destruct a; reflexivity. Qed.

Lemma min_check_1 message field s :
  passes (min_check 1 message field s) = true <-> s <> "".
Proof.
  unfold min_check. destruct s as [|c s]; simpl; split;
    try congruence; try discriminate; reflexivity.
Qed.

Lemma regex_check_passes re message field s :
  passes (regex_check re message field s) = Regex.test re s.
Proof. unfold regex_check. destruct (Regex.test re s); reflexivity. Qed.

Lemma recipientPhone_issues_spec s :
  passes (recipientPhone_issues s) = true <-> s <> "" /\ is_55_then_digits s.
Proof.
  unfold recipientPhone_issues.
  rewrite passes_app, andb_true_iff, min_check_1, regex_check_passes.
  now rewrite PhonePattern.phone_pattern_spec.
Qed.

Lemma formSchema_spec v :
  passes (formSchema v) = true <->
  template v <> "" /\ phoneNumberId v <> ""
  /\ recipientPhone v <> "" /\ is_55_then_digits (recipientPhone v).
Proof.
  unfold formSchema.
  rewrite !passes_app, !andb_true_iff, !min_check_1.
  now rewrite recipientPhone_issues_spec.
Qed.

(** What the input handlers keep true of the field values. *)
Lemma act_invariant f a :
  selectable TEMPLATES (template f) /\ selectable PHONE_IDS (phoneNumberId f)
  /\ digits_only (recipientPhone f) ->
  selectable TEMPLATES (template (act f a))
  /\ selectable PHONE_IDS (phoneNumberId (act f a))
  /\ digits_only (recipientPhone (act f a)).
Proof.
  intros (Ht & Hp & Hr). destruct a as [i | i | raw]; simpl.
  - destruct (nth_error TEMPLATES i) as [o|] eqn:Hi; simpl; auto.
    repeat split; auto. right. apply in_map. eapply nth_error_In; eauto.
  - destruct (nth_error PHONE_IDS i) as [o|] eqn:Hi; simpl; auto.
    repeat split; auto. right. apply in_map. eapply nth_error_In; eauto.
  - repeat split; auto. apply PhonePattern.replace_non_digits_digits_only.
Qed.

Lemma form_after_invariant actions :
  selectable TEMPLATES (template (form_after actions))
  /\ selectable PHONE_IDS (phoneNumberId (form_after actions))
  /\ digits_only (recipientPhone (form_after actions)).
Proof.
  unfold form_after.
  assert (H0 : selectable TEMPLATES (template defaultValues)
               /\ selectable PHONE_IDS (phoneNumberId defaultValues)
               /\ digits_only (recipientPhone defaultValues)).
  { split; [|split]; [left; reflexivity | left; reflexivity | constructor]. }
  revert H0. generalize defaultValues.
  induction actions as [|a actions IH]; intros f Hf; simpl; auto.
  apply IH, act_invariant, Hf.
Qed.

(** C2. Every change of the recipient input stores its text with the
    non-digit characters removed and the digits kept in place, so the stored
    recipient is digits-only whatever the user did; and a recipient value
    passes the schema exactly when it is non-empty and is "55" followed by
    10 to 11 digits, which is what the pattern [^55\d{10,11}$] accepts. *)
Theorem C2_recipient_digits_only_and_pattern :
  (forall raw,
      list_ascii_of_string (recipient_onChange raw)
      = filter Regex.is_digit (list_ascii_of_string raw))
  /\ (forall raw, digits_only (recipient_onChange raw))
  /\ (forall actions, digits_only (recipientPhone (form_after actions)))
  /\ (forall s, Regex.test phone_pattern s = true <-> is_55_then_digits s)
  /\ (forall s, passes (recipientPhone_issues s) = true <->
                s <> "" /\ is_55_then_digits s).
Proof.
  split; [|split; [|split; [|split]]].
  - intros raw. apply PhonePattern.replace_non_digits_keeps_digits.
  - intros raw. apply PhonePattern.replace_non_digits_digits_only.
  - intros actions. apply form_after_invariant.
  - apply PhonePattern.phone_pattern_spec.
  - apply recipientPhone_issues_spec.
Qed.

(* ===================================================================== *)
(** ** One submission attempt *)

Section SubmissionFacts.
Context {E : Engine}.

(** The attempt, path by path. *)
Lemma onSubmit_rejected env v e :
  network env WEBHOOK_URL (request (payload v (clock env))) = Rejected e ->
  onSubmit env v = failing env v e.
Proof.
  intros H. unfold onSubmit, fetch. cbn. rewrite H. reflexivity.
Qed.

Lemma onSubmit_parse_throws env v r e :
  network env WEBHOOK_URL (request (payload v (clock env))) = Resolved r ->
  json_result r = ParseThrows e ->
  onSubmit env v = failing env v e.
Proof.
  intros H Hj. unfold onSubmit, fetch, response_json. cbn.
  rewrite H. cbn. rewrite Hj. reflexivity.
Qed.

Lemma onSubmit_ok env v r data :
  network env WEBHOOK_URL (request (payload v (clock env))) = Resolved r ->
  json_result r = Parsed data ->
  ok r = true ->
  onSubmit env v = succeeding env v data.
Proof.
  intros H Hj Hok. unfold onSubmit, fetch, response_json. cbn.
  rewrite H. cbn. rewrite Hj. cbn. rewrite Hok. reflexivity.
Qed.

Lemma onSubmit_not_ok env v r data :
  network env WEBHOOK_URL (request (payload v (clock env))) = Resolved r ->
  json_result r = Parsed data ->
  ok r = false ->
  onSubmit env v =
  failing env v (match failure_error data r with Normal e => e | Abrupt e => e end).
Proof.
  intros H Hj Hok. unfold onSubmit, fetch, response_json. cbn.
  rewrite H. cbn. rewrite Hj. cbn. rewrite Hok. cbn.
  destruct (failure_error data r); reflexivity.
Qed.

(** Every attempt ends one of two ways: the response is stored, or an
    error text is. *)
Lemma onSubmit_cases env v :
  (exists r data,
      network env WEBHOOK_URL (request (payload v (clock env))) = Resolved r
      /\ json_result r = Parsed data /\ ok r = true
      /\ onSubmit env v = succeeding env v data)
  \/ (exists e, onSubmit env v = failing env v e).
Proof.
  destruct (network env WEBHOOK_URL (request (payload v (clock env))))
    as [e | r] eqn:H.
  - right. exists e. now apply onSubmit_rejected.
  - destruct (json_result r) as [data | e] eqn:Hj.
    + destruct (ok r) eqn:Hok.
      * left. exists r, data. repeat split; auto.
        exact (onSubmit_ok env v r data H Hj Hok).
      * right. eexists. exact (onSubmit_not_ok env v r data H Hj Hok).
    + right. exists e. exact (onSubmit_parse_throws env v r e H Hj).
Qed.

Lemma replay_app a b s : replay (a ++ b) s = replay b (replay a s).
Proof. apply fold_left_app. Qed.

Lemma final_succeeding env v data s :
  onSubmit env v = succeeding env v data ->
  final_state env v s =
  {| isSubmitting := false; sentPayload := payload v (clock env);
     webhookResponse := data; error := None |}.
Proof. unfold final_state, trace. intros ->. reflexivity. Qed.

Lemma final_failing env v e s :
  onSubmit env v = failing env v e ->
  final_state env v s =
  {| isSubmitting := false; sentPayload := payload v (clock env);
     webhookResponse := JNull; error := Some (errorMessage e) |}.
Proof. unfold final_state, trace. intros ->. reflexivity. Qed.

(** C1. A submission of valid field values (t, p, r) at clock reading ts
    builds exactly the payload of the specification, hands it to the POST
    and leaves it in [sentPayload], however the attempt ends. *)
Theorem C1_payload_built_and_stored :
  forall (t p r ts : string) (net : string -> RequestInit -> fetch_result)
         (s : UIState),
  let v := {| template := t; phoneNumberId := p; recipientPhone := r |} in
  let env := {| clock := ts; network := net |} in
  let P :=
    JObj [ ("messaging_product", JStr "whatsapp");
           ("from_phone_number_id", JStr p);
           ("to", JStr r);
           ("type", JStr "template");
           ("template",
            JObj [ ("name", JStr t);
                   ("language", JObj [ ("code", JStr "en_US") ]) ]);
           ("debug",
            JObj [ ("ui_origin", JStr "lovable-web-sender");
                   ("sent_at", JStr ts) ]) ] in
  passes (formSchema v) = true ->
  handleSubmit env v = onSubmit env v
  /\ In (SetSentPayload P) (fst (handleSubmit env v))
  /\ (forall url init,
        In (Fetch url init) (fst (handleSubmit env v)) -> body init = P)
  /\ sentPayload (replay (fst (handleSubmit env v)) s) = P.
Proof.
  intros t p r ts net s v env P Hvalid.
  unfold handleSubmit. rewrite Hvalid.
  split; [reflexivity|].
  destruct (onSubmit_cases env v) as [(r0 & data & _ & _ & _ & ->) | (e & ->)];
    (split; [simpl; auto 10 | split; [|reflexivity]]);
    intros url init Hin; simpl in Hin;
    repeat (destruct Hin as [Hin | Hin]; try discriminate);
    try contradiction; inversion Hin; reflexivity.
Qed.

(** C5. When the response has a status in 200-299 and its body parses to
    the JSON value [data], whatever its shape, [webhookResponse] ends as
    [data] and [error] stays null. *)
Theorem C5_success_stores_body :
  forall env v s r data,
  network env WEBHOOK_URL (request (payload v (clock env))) = Resolved r ->
  json_result r = Parsed data ->
  (200 <= status r <= 299)%N ->
  webhookResponse (final_state env v s) = data
  /\ error (final_state env v s) = None.
Proof.
  intros env v s r data H Hj Hst.
  assert (Hok : ok r = true).
  { unfold ok. apply andb_true_iff. split; apply N.leb_le; lia. }
  rewrite (final_succeeding env v data s (onSubmit_ok env v r data H Hj Hok)).
  split; reflexivity.
Qed.

Lemma final_not_ok env v s r data :
  network env WEBHOOK_URL (request (payload v (clock env))) = Resolved r ->
  json_result r = Parsed data ->
  ok r = false ->
  final_state env v s =
  {| isSubmitting := false; sentPayload := payload v (clock env);
     webhookResponse := JNull;
     error := Some (errorMessage
                      (match failure_error data r with
                       | Normal e => e
                       | Abrupt e => e
                       end)) |}.
Proof.
  intros H Hj Hok. apply final_failing. now apply (onSubmit_not_ok env v r data).
Qed.

Lemma failure_error_falsy data r m :
  get_message data = Normal m -> truthy m = false ->
  failure_error data r
  = Normal (ErrorInstance ("Erro: " ++ status_text (status r))%string).
Proof. intros Hm Ht. unfold failure_error. now rewrite Hm, Ht. Qed.

Lemma failure_error_truthy data r m text :
  get_message data = Normal (Some m) -> truthy (Some m) = true ->
  to_string m = Normal text ->
  failure_error data r = Normal (ErrorInstance text).
Proof. intros Hm Ht Hs. unfold failure_error. now rewrite Hm, Ht, Hs. Qed.

Lemma not_ok_iff r : ok r = false <-> ~ (200 <= status r <= 299)%N.
Proof.
  unfold ok. rewrite andb_false_iff, !N.leb_gt. lia.
Qed.

(** C4, as the code has it. When the response has a status outside 200-299
    and its body parses to [data]: [webhookResponse] stays null,
    [sentPayload] keeps the payload and [error] is set. The error is the
    body's [message] when that is truthy, converted to a string (a non-empty
    string as it is); it is "Erro: <status>" when the body is not null and
    its [message] is absent or falsy; and it is the engine's TypeError
    message when the body is null. *)
Theorem C4_http_failure_error_text :
  forall env v s r data,
  network env WEBHOOK_URL (request (payload v (clock env))) = Resolved r ->
  json_result r = Parsed data ->
  ~ (200 <= status r <= 299)%N ->
  let f := final_state env v s in
  webhookResponse f = JNull
  /\ sentPayload f = payload v (clock env)
  /\ error f <> None
  /\ (forall fields text,
        data = JObj fields ->
        own_property "message" fields = Some (JStr text) -> text <> "" ->
        error f = Some text)
  /\ (forall m text,
        get_message data = Normal (Some m) -> truthy (Some m) = true ->
        to_string m = Normal text ->
        error f = Some text)
  /\ (forall m,
        get_message data = Normal m -> truthy m = false ->
        error f = Some ("Erro: " ++ status_text (status r))%string)
  /\ (data = JNull -> error f = Some null_property_message).
Proof.
  intros env v s r data H Hj Hst f.
  apply not_ok_iff in Hst.
  unfold f. rewrite (final_not_ok env v s r data H Hj Hst). cbn.
  repeat split; try discriminate.
  - intros fields text -> Hm Hne.
    rewrite (failure_error_truthy _ r (JStr text) text); auto.
    + cbn. now rewrite Hm.
    + cbn. now destruct (String.eqb_spec text "").
  - intros m text Hm Ht Hs.
    now rewrite (failure_error_truthy _ r m text Hm Ht Hs).
  - intros m Hm Ht. now rewrite (failure_error_falsy _ r m Hm Ht).
  - intros ->. reflexivity.
Qed.

(** C10. When the response has a status outside 200-299 and the parsed
    body has a [message] that is falsy (the empty string, zero, false or
    null), the error is "Erro: <status>", not the field: the selection
    tests the truthiness of [message], not its presence. *)
Theorem C10_falsy_message_gives_status_text :
  forall env v s r fields m,
  network env WEBHOOK_URL (request (payload v (clock env))) = Resolved r ->
  json_result r = Parsed (JObj fields) ->
  ~ (200 <= status r <= 299)%N ->
  own_property "message" fields = Some m ->
  truthy (Some m) = false ->
  error (final_state env v s)
  = Some ("Erro: " ++ status_text (status r))%string.
Proof.
  intros env v s r fields m H Hj Hst Hm Ht.
  apply not_ok_iff in Hst.
  rewrite (final_not_ok env v s r _ H Hj Hst).
  rewrite (failure_error_falsy _ r (Some m)); auto.
  cbn. now rewrite Hm.
Qed.

(** The falsy JSON values. *)
Lemma truthy_false_iff m :
  truthy (Some m) = false <->
  m = JNull \/ m = JBool false \/ m = JStr ""
  \/ exists n, m = JNum n /\ number_is_zero n = true.
Proof.
  split.
  - destruct m as [|b|n|t|l|l]; simpl; intros H; try discriminate; auto.
    + subst; auto.
    + right; right; right. exists n. split; auto.
      now apply negb_false_iff in H.
    + right; right; left. apply negb_false_iff, String.eqb_eq in H.
      now subst.
  - intros [-> | [-> | [-> | (n & -> & Hz)]]]; simpl; auto. now rewrite Hz.
Qed.

(** C3, as the code has it. The schema asks of [template] and
    [phoneNumberId] only that they are not empty: it does not look at the
    configured lists. Values that fail the schema block the submission, and
    nothing is emitted. The two selects only ever store the value of an
    option they render, so whenever the form the user filled in issues the
    POST, its [template] and [phoneNumberId] are configured values. *)
Theorem C3_submission_needs_selected_values :
  (forall v,
      passes (formSchema v) = true <->
      template v <> "" /\ phoneNumberId v <> ""
      /\ recipientPhone v <> "" /\ is_55_then_digits (recipientPhone v))
  /\ (forall env v,
        passes (formSchema v) = false -> handleSubmit env v = ret tt)
  /\ (forall env actions url init,
        In (Fetch url init) (fst (handleSubmit env (form_after actions))) ->
        In (template (form_after actions)) (map value TEMPLATES)
        /\ In (phoneNumberId (form_after actions)) (map value PHONE_IDS)).
Proof.
  split; [apply formSchema_spec | split].
  - intros env v Hv. unfold handleSubmit. now rewrite Hv.
  - intros env actions url init Hin.
    destruct (passes (formSchema (form_after actions))) eqn:Hv.
    + apply formSchema_spec in Hv. destruct Hv as (Ht & Hp & _).
      destruct (form_after_invariant actions) as ([Ht' | Ht'] & [Hp' | Hp'] & _);
        try contradiction; auto.
    + unfold handleSubmit in Hin. rewrite Hv in Hin. destruct Hin.
Qed.

(** C6, as the code has it. When [fetch] rejects or the parsing of the body
    throws, [error] is the message of the thrown value whenever that value
    is an Error, the empty message included, and the generic text only when
    it is not an Error. The attempt completes normally: nothing is left
    unhandled, and [isSubmitting] is back to false. *)
Theorem C6_thrown_error_text :
  forall env v s e,
  network env WEBHOOK_URL (request (payload v (clock env))) = Rejected e
  \/ (exists r,
        network env WEBHOOK_URL (request (payload v (clock env))) = Resolved r
        /\ json_result r = ParseThrows e) ->
  let f := final_state env v s in
  (forall m, e = ErrorInstance m -> error f = Some m)
  /\ (e = NotAnError -> error f = Some "Erro desconhecido ao enviar")
  /\ snd (onSubmit env v) = Normal tt
  /\ isSubmitting f = false
  /\ webhookResponse f = JNull.
Proof.
  intros env v s e H f.
  assert (Heq : onSubmit env v = failing env v e).
  { destruct H as [H | (r & H & Hj)].
    - now apply onSubmit_rejected.
    - now apply (onSubmit_parse_throws env v r e). }
  unfold f. rewrite (final_failing env v e s Heq), Heq. cbn.
  repeat split; intros; subst; reflexivity.
Qed.

(** C7. [isSubmitting] is false in the initial state. Every attempt sets
    it first, to true; it is true in every state strictly inside the
    attempt; the last event of the attempt, on every path, is the
    finalizer's reset to false, and the attempt completes normally. After
    any sequence of submit requests it is false. *)
Theorem C7_isSubmitting_brackets_the_attempt :
  isSubmitting initial_state = false
  /\ (forall env v s,
        hd_error (trace env v) = Some (SetIsSubmitting true)
        /\ Forall (fun st => isSubmitting st = true)
                  (states_inside (trace env v) s)
        /\ last (trace env v) (SetIsSubmitting true) = SetIsSubmitting false
        /\ isSubmitting (final_state env v s) = false
        /\ snd (onSubmit env v) = Normal tt)
  /\ (forall attempts,
        isSubmitting (replay (session_trace attempts) initial_state) = false).
Proof.
  assert (Hone : forall env v s,
             hd_error (trace env v) = Some (SetIsSubmitting true)
             /\ Forall (fun st => isSubmitting st = true)
                       (states_inside (trace env v) s)
             /\ last (trace env v) (SetIsSubmitting true)
                = SetIsSubmitting false
             /\ isSubmitting (final_state env v s) = false
             /\ snd (onSubmit env v) = Normal tt).
  { intros env v s. unfold final_state, trace.
    destruct (onSubmit_cases env v)
      as [(r0 & data & _ & _ & _ & ->) | (e & ->)];
      cbn; repeat split; repeat constructor. }
  split; [reflexivity | split; [exact Hone|]].
  intros attempts. unfold session_trace.
  generalize (eq_refl : isSubmitting initial_state = false).
  generalize initial_state.
  induction attempts as [|[env v] attempts IH]; intros s Hs; simpl; auto.
  rewrite replay_app. apply IH.
  unfold handleSubmit. destruct (passes (formSchema v)); simpl; auto.
  apply (Hone env v s).
Qed.

(** C8. In every attempt the payload is written to [sentPayload] before the
    one POST is issued: the state at the call already holds it, and it is
    still there when the attempt has ended, whatever the network did. *)
Theorem C8_payload_stored_before_post :
  forall env v s,
  exists after,
    trace env v =
      [ SetIsSubmitting true; SetError None; SetSentPayload JNull;
        SetWebhookResponse JNull; SetSentPayload (payload v (clock env)) ]
      ++ Fetch WEBHOOK_URL (request (payload v (clock env))) :: after
    /\ (forall url init, ~ In (Fetch url init) after)
    /\ sentPayload
         (replay [ SetIsSubmitting true; SetError None; SetSentPayload JNull;
                   SetWebhookResponse JNull;
                   SetSentPayload (payload v (clock env)) ] s)
       = payload v (clock env)
    /\ payload v (clock env) <> JNull
    /\ sentPayload (final_state env v s) = payload v (clock env).
Proof.
  intros env v s. unfold final_state, trace.
  destruct (onSubmit_cases env v)
    as [(r0 & data & _ & _ & _ & ->) | (e & ->)];
    eexists; (split; [reflexivity|]); cbn;
    (repeat split; try discriminate);
    intros url init Hin;
    repeat (destruct Hin as [Hin | Hin]; try discriminate); contradiction.
Qed.

(** C9, as the code has it. The first four events of an attempt leave
    [isSubmitting] true and the other three cells null. While the request is
    pending, [webhookResponse] and [error] are null and [isSubmitting] is
    true. When the attempt has ended, at most one of [webhookResponse] and
    [error] is non-null; both are null exactly when the response had a
    status in 200-299 and the body [null], so in every other case exactly
    one is non-null. *)
Theorem C9_reset_then_at_most_one_result :
  forall env v s,
  replay (firstn 4 (trace env v)) s
  = {| isSubmitting := true; sentPayload := JNull;
       webhookResponse := JNull; error := None |}
  /\ (firstn 6 (trace env v) = opening env v
      /\ isSubmitting (replay (opening env v) s) = true
      /\ webhookResponse (replay (opening env v) s) = JNull
      /\ error (replay (opening env v) s) = None)
  /\ (webhookResponse (final_state env v s) = JNull
      \/ error (final_state env v s) = None)
  /\ (webhookResponse (final_state env v s) = JNull
      /\ error (final_state env v s) = None
      <-> exists r,
            network env WEBHOOK_URL (request (payload v (clock env)))
            = Resolved r
            /\ ok r = true /\ json_result r = Parsed JNull).
Proof.
  intros env v s.
  destruct (onSubmit_cases env v)
    as [(r0 & data & Hn & Hj & Hok & Heq) | (e & Heq)].
  - rewrite (final_succeeding env v data s Heq).
    unfold trace. rewrite Heq. cbn.
    split; [reflexivity | split; [repeat split | split; [now right | split]]].
    + intros [-> _]. exists r0. auto.
    + intros (r & Hn' & _ & Hj').
      rewrite Hn in Hn'. inversion Hn'; subst. rewrite Hj in Hj'.
      inversion Hj'. auto.
  - rewrite (final_failing env v e s Heq).
    unfold trace. rewrite Heq. cbn.
    split; [reflexivity | split; [repeat split | split; [now left | split]]].
    + intros [_ H]. discriminate.
    + intros (r & Hn & Hok & Hj).
      rewrite (onSubmit_ok env v r JNull Hn Hj Hok) in Heq.
      unfold succeeding, failing in Heq. inversion Heq.
Qed.

End SubmissionFacts.

(* ===================================================================== *)
(** ** More on the recipient field *)

Lemma append_empty_r (s : string) : (s ++ "")%string = s.
Proof. induction s as [|c s IH]; simpl; congruence. Qed.

Lemma replace_all_empty_app p a b :
  Regex.replace_all p "" (a ++ b)
  = (Regex.replace_all p "" a ++ Regex.replace_all p "" b)%string.
Proof.
  induction a as [|c a IH]; simpl; [reflexivity|].
  destruct (p c); simpl; congruence.
Qed.

Lemma recipient_onChange_fixes_digits s :
  digits_only s -> recipient_onChange s = s.
Proof.
  unfold digits_only, recipient_onChange.
  induction s as [|c s IH]; simpl; intros H; [reflexivity|].
  inversion H as [|? ? Hc Hs]; subst.
  unfold Regex.is_non_digit at 1. rewrite Hc. simpl. now rewrite IH.
Qed.

Lemma digits_only_app a b :
  digits_only a -> digits_only b -> digits_only (a ++ b).
Proof.
  unfold digits_only. intros Ha Hb.
  rewrite RegexFacts.list_ascii_of_string_app. now apply Forall_app.
Qed.

Lemma filter_all_digits l :
  Forall (fun c => Regex.is_digit c = true) (filter Regex.is_digit l).
Proof.
  apply Forall_forall. intros c Hc. now apply filter_In in Hc.
Qed.

(** X1. Cleaning the recipient text twice is cleaning it once, and the
    texts the cleaning leaves as they are are exactly the digits-only
    ones. *)
Theorem recipient_cleaning_is_idempotent :
  (forall raw,
      recipient_onChange (recipient_onChange raw) = recipient_onChange raw)
  /\ (forall s, recipient_onChange s = s <-> digits_only s).
Proof.
  split.
  - intros raw. apply recipient_onChange_fixes_digits.
    apply PhonePattern.replace_non_digits_digits_only.
  - intros s. split.
    + intros <-. apply PhonePattern.replace_non_digits_digits_only.
    + apply recipient_onChange_fixes_digits.
Qed.

(** X2. One more character typed at the end of the stored recipient: a
    digit is appended, anything else leaves the field as it was. *)
Theorem typing_one_more_character :
  forall (stored : string) (c : ascii),
  digits_only stored ->
  recipient_onChange (stored ++ String c "")
  = if Regex.is_digit c then (stored ++ String c "")%string else stored.
Proof.
  intros stored c H. unfold recipient_onChange.
  rewrite replace_all_empty_app.
  fold (recipient_onChange stored).
  rewrite (recipient_onChange_fixes_digits stored H).
  simpl. unfold Regex.is_non_digit.
  destruct (Regex.is_digit c); simpl; [reflexivity | apply append_empty_r].
Qed.

(** X3. Whether the text typed into the recipient input ends up valid
    depends on its digits alone: the stored value passes the schema exactly
    when the digits of the text, in order, are 5, 5 and 10 to 11 more. *)
Theorem typed_text_is_judged_by_its_digits :
  forall raw,
  passes (recipientPhone_issues (recipient_onChange raw)) = true <->
  exists rest,
    filter Regex.is_digit (list_ascii_of_string raw)
    = "5"%char :: "5"%char :: rest
    /\ 10 <= List.length rest <= 11.
Proof.
  intros raw. rewrite recipientPhone_issues_spec.
  pose proof (PhonePattern.replace_non_digits_keeps_digits raw) as Hf.
  fold (recipient_onChange raw) in Hf. split.
  - intros (_ & d & Hd & _ & Hlen).
    exists (list_ascii_of_string d). split.
    + rewrite <- Hf, Hd. reflexivity.
    + now rewrite RegexFacts.length_list_ascii_of_string.
  - intros (rest & Hrest & Hlen).
    assert (Hs : recipient_onChange raw
                 = ("55" ++ string_of_list_ascii rest)%string).
    { rewrite <- (string_of_list_ascii_of_string (recipient_onChange raw)).
      rewrite Hf, Hrest. reflexivity. }
    split.
    + rewrite Hs. discriminate.
    + exists (string_of_list_ascii rest). split; [exact Hs | split].
      * unfold digits_only. rewrite list_ascii_of_string_of_list_ascii.
        pose proof (filter_all_digits (list_ascii_of_string raw)) as Hall.
        rewrite Hrest in Hall.
        inversion Hall as [|? ? _ Hall']; subst.
        now inversion Hall'.
      * rewrite <- RegexFacts.length_list_ascii_of_string,
          list_ascii_of_string_of_list_ascii. exact Hlen.
Qed.

(** X4. The schema alone keeps non-digits out: a recipient passes exactly
    when it is digits-only, 12 or 13 characters long, and starts with
    "55". *)
Theorem accepted_recipient_shape :
  forall s,
  passes (recipientPhone_issues s) = true <->
  digits_only s
  /\ (String.length s = 12 \/ String.length s = 13)
  /\ substring 0 2 s = "55".
Proof.
  intros s. rewrite recipientPhone_issues_spec. split.
  - intros (_ & d & -> & Hd & Hlen). split; [|split].
    + apply digits_only_app; [|exact Hd].
      repeat constructor.
    + simpl. lia.
    + simpl. now destruct d.
  - intros (Hd & Hlen & Hp).
    destruct s as [|a [|b d]]; simpl in Hp; try discriminate.
    injection Hp as -> -> _.
    split; [discriminate|].
    exists d. split; [reflexivity | split].
    + unfold digits_only in *. simpl in Hd.
      inversion Hd as [|? ? _ Hd']; subst. now inversion Hd'.
    + simpl in Hlen. lia.
Qed.

(** X5. What the schema reports for the recipient: the empty value gets
    the "insira" message followed by the format message, a non-empty value
    that is not "55" and 10 to 11 digits gets the format message alone, and
    the other values get nothing. *)
Theorem recipient_messages :
  forall s,
  (s = "" ->
   recipientPhone_issues s
   = [ (FRecipientPhone, msg_recipient_empty);
       (FRecipientPhone, msg_recipient_format) ])
  /\ (s <> "" -> ~ is_55_then_digits s ->
      recipientPhone_issues s = [ (FRecipientPhone, msg_recipient_format) ])
  /\ (is_55_then_digits s -> recipientPhone_issues s = []).
Proof.
  intros s. split; [|split].
  - intros ->. reflexivity.
  - intros Hne Hno. unfold recipientPhone_issues, min_check, regex_check.
    destruct s as [|c s]; [contradiction|]. simpl.
    destruct (Regex.test phone_pattern (String c s)) eqn:Ht; [|reflexivity].
    apply PhonePattern.phone_pattern_spec in Ht. contradiction.
  - intros H. pose proof H as (d & -> & _).
    apply PhonePattern.phone_pattern_spec in H.
    unfold recipientPhone_issues, min_check, regex_check. now rewrite H.
Qed.

(* ===================================================================== *)
(** ** More on the attempt: requests, notifications, sessions *)

Section MoreSubmissionFacts.
Context {E : Engine}.

Lemma fetch_in_trace env v url init :
  In (Fetch url init) (trace env v) ->
  url = WEBHOOK_URL /\ init = request (payload v (clock env)).
Proof.
  unfold trace.
  destruct (onSubmit_cases env v)
    as [(r0 & data & _ & _ & _ & ->) | (e & ->)];
    intros Hin; simpl in Hin;
    repeat (destruct Hin as [Hin | Hin]; try discriminate);
    try contradiction; inversion Hin; auto.
Qed.

Lemma final_state_any env v s s' :
  final_state env v s = final_state env v s'.
Proof.
  destruct (onSubmit_cases env v) as [(r0 & data & _ & _ & _ & H) | (e & H)].
  - now rewrite !(final_succeeding env v data _ H).
  - now rewrite !(final_failing env v e _ H).
Qed.

Lemma session_trace_app a b :
  session_trace (a ++ b) = session_trace a ++ session_trace b.
Proof. apply flat_map_app. Qed.

(** X6. Whatever the user did to the fields, a request that leaves the
    form goes to the webhook URL with the payload of these fields, and the
    fields are a configured template, a configured phone id and a
    digits-only recipient made of "55" and 10 to 11 digits. *)
Theorem every_request_from_the_form :
  forall env actions url init,
  In (Fetch url init) (fst (handleSubmit env (form_after actions))) ->
  url = WEBHOOK_URL
  /\ init = request (payload (form_after actions) (clock env))
  /\ In (template (form_after actions)) (map value TEMPLATES)
  /\ In (phoneNumberId (form_after actions)) (map value PHONE_IDS)
  /\ digits_only (recipientPhone (form_after actions))
  /\ is_55_then_digits (recipientPhone (form_after actions)).
Proof.
  intros env actions url init Hin. unfold handleSubmit in Hin.
  destruct (passes (formSchema (form_after actions))) eqn:Hv;
    [|destruct Hin].
  apply formSchema_spec in Hv. destruct Hv as (Ht & Hp & _ & Hr).
  destruct (fetch_in_trace env _ url init Hin) as [-> ->].
  destruct (form_after_invariant actions) as ([Ht' | Ht'] & [Hp' | Hp'] & Hd);
    try contradiction.
  repeat split; auto.
Qed.

(** X7. Every attempt shows exactly one notification, after its result is
    stored and just before the finalizer: the destructive one carrying the
    error text when [error] was set, the success one otherwise. *)
Theorem one_notification_per_attempt :
  forall env v s,
  exists before t,
    trace env v = before ++ [Toast t; SetIsSubmitting false]
    /\ toasts before = []
    /\ toasts (trace env v) = [t]
    /\ t = match error (final_state env v s) with
           | Some text => failure_toast text
           | None => success_toast
           end.
Proof.
  intros env v s.
  destruct (onSubmit_cases env v) as [(r0 & data & _ & _ & _ & H) | (e & H)].
  - rewrite (final_succeeding env v data s H). unfold trace. rewrite H.
    exists (opening env v ++ [SetWebhookResponse data]), success_toast.
    repeat split.
  - rewrite (final_failing env v e s H). unfold trace. rewrite H.
    exists (opening env v ++ [SetError (Some (errorMessage e))]),
           (failure_toast (errorMessage e)).
    repeat split.
Qed.

(** X8. An attempt overwrites all four cells: the state it ends in does
    not depend on the state it started from, so nothing of an earlier
    attempt survives a later one. *)
Theorem attempt_overwrites_the_state :
  forall env v s s', final_state env v s = final_state env v s'.
Proof. exact final_state_any. Qed.

(** X9. Along a session, a submit request that fails the schema leaves the
    state as it was, the results of the attempt before it included; one
    that passes leaves the state of its own attempt alone. *)
Theorem session_state_is_the_last_valid_attempt :
  (forall attempts env v s,
      passes (formSchema v) = false ->
      replay (session_trace (attempts ++ [(env, v)])) s
      = replay (session_trace attempts) s)
  /\ (forall attempts env v s,
        passes (formSchema v) = true ->
        replay (session_trace (attempts ++ [(env, v)])) s
        = final_state env v initial_state).
Proof.
  split; intros attempts env v s Hv;
    rewrite session_trace_app, replay_app;
    unfold session_trace at 1; simpl; unfold handleSubmit; rewrite Hv; simpl.
  - reflexivity.
  - rewrite app_nil_r. apply final_state_any.
Qed.

(** X10. The fallback text names the status: reading the digits of
    [status_text] back gives the status, so two statuses never share a
    text. *)
Theorem status_text_round_trip :
  (forall n,
      option_map N.of_uint (NilEmpty.uint_of_string (status_text n)) = Some n)
  /\ (forall n m, status_text n = status_text m -> n = m).
Proof.
  assert (H : forall n,
             option_map N.of_uint (NilEmpty.uint_of_string (status_text n))
             = Some n).
  { intros n. unfold status_text. rewrite NilEmpty.usu. simpl.
    now rewrite DecimalN.Unsigned.of_to. }
  split; [exact H|].
  intros n m Heq. pose proof (H n) as Hn. rewrite Heq, H in Hn.
  now inversion Hn.
Qed.

(** X11. A [message] that is itself a JSON object never shows its content:
    on a status outside 200-299 the error is "[object Object]", or the
    engine's TypeError message when the object has a property named
    [toString]. *)
Theorem object_message_is_not_readable :
  forall env v s r fields inner,
  network env WEBHOOK_URL (request (payload v (clock env))) = Resolved r ->
  json_result r = Parsed (JObj fields) ->
  ~ (200 <= status r <= 299)%N ->
  own_property "message" fields = Some (JObj inner) ->
  error (final_state env v s)
  = Some (match own_property "toString" inner with
          | Some _ => not_primitive_message
          | None => "[object Object]"
          end).
Proof.
  intros env v s r fields inner H Hj Hst Hm.
  apply not_ok_iff in Hst.
  rewrite (final_not_ok env v s r _ H Hj Hst).
  unfold failure_error. cbn. rewrite Hm. cbn.
  destruct (own_property "toString" inner); reflexivity.
Qed.

(* ===================================================================== *)
(** ** What is on screen *)

Lemma payload_truthy v ts : truthy (Some (payload v ts)) = true.
Proof. reflexivity. Qed.

(** X12. The results section is drawn exactly when one of the three cells
    is truthy: it is hidden when the payload and the response are falsy and
    the error is null or empty, and it is never replaced by a stray text. *)
Theorem results_section_visibility :
  forall s,
  (results (render s) = Hidden <->
   truthy (Some (sentPayload s)) = false
   /\ truthy (Some (webhookResponse s)) = false
   /\ (error s = None \/ error s = Some ""))
  /\ (forall text, results (render s) <> AsText text).
Proof.
  intros [sub p w e].
  cbn [render results sentPayload webhookResponse error].
  unfold or_value, and_element.
  destruct (truthy (Some p)) eqn:Hp; cbn beta iota.
  { rewrite Hp; cbn beta iota. rewrite Hp. split; [split|].
    - intros H. discriminate H.
    - intros (H & _). discriminate H.
    - intros text H. discriminate H. }
  destruct (truthy (Some w)) eqn:Hw; cbn beta iota.
  { rewrite Hw. split; [split|].
    - intros H. discriminate H.
    - intros (_ & H & _). discriminate H.
    - intros text H. discriminate H. }
  destruct e as [text|]; cbn.
  - destruct (String.eqb_spec text "") as [-> | Hne]; cbn.
    + split; [split|]; [auto | auto | intros text H; discriminate H].
    + split; [split|].
      * intros H. discriminate H.
      * intros (_ & _ & [H | H]); [discriminate | inversion H; contradiction].
      * intros text' H. discriminate H.
  - split; [split|]; [auto | auto | intros text H; discriminate H].
Qed.

(** X13. While the request is pending the button is disabled and shows
    the spinner with "Enviando...", and the results section shows the
    payload and nothing else. *)
Theorem view_while_pending :
  forall env v s,
  render (replay (opening env v) s)
  = {| submit_button :=
         {| disabled := true; spinner := true; caption := "Enviando..." |};
       results :=
         Element {| payload_block := Element (payload v (clock env));
                    response_block := Hidden;
                    error_block := Hidden |} |}.
Proof. reflexivity. Qed.

(** X14. When an attempt has ended the button is enabled again and reads
    "Enviar Mensagem"; the results section is drawn and shows the payload;
    the response block and the error block are never both drawn. *)
Theorem view_after_an_attempt :
  forall env v s,
  submit_button (render (final_state env v s))
  = {| disabled := false; spinner := false; caption := "Enviar Mensagem" |}
  /\ exists r,
       results (render (final_state env v s)) = Element r
       /\ payload_block r = Element (payload v (clock env))
       /\ (response_block r = Hidden \/ error_block r = Hidden).
Proof.
  intros env v s.
  destruct (onSubmit_cases env v) as [(r0 & data & _ & _ & _ & H) | (e & H)].
  - rewrite (final_succeeding env v data s H).
    split; [reflexivity|]. eexists. split; [reflexivity|].
    split; [reflexivity | right; reflexivity].
  - rewrite (final_failing env v e s H).
    split; [reflexivity|]. eexists. split; [reflexivity|].
    split; [reflexivity | left; reflexivity].
Qed.

(** X15. After an attempt that set [error], the error block is drawn
    exactly when the text is not empty: with an empty text the screen shows
    the payload alone, as if nothing had answered. *)
Theorem error_block_needs_a_text :
  forall env v s text,
  error (final_state env v s) = Some text ->
  exists r,
    results (render (final_state env v s)) = Element r
    /\ payload_block r = Element (payload v (clock env))
    /\ response_block r = Hidden
    /\ error_block r
       = if String.eqb text "" then Hidden else Element (Some text).
Proof.
  intros env v s text.
  destruct (onSubmit_cases env v) as [(r0 & data & _ & _ & _ & H) | (e & H)].
  - rewrite (final_succeeding env v data s H). discriminate.
  - rewrite (final_failing env v e s H). cbn. intros Heq.
    inversion Heq as [Hm]. eexists. split; [reflexivity|].
    split; [reflexivity | split; [reflexivity|]].
    cbn. unfold and_element. cbn.
    destruct (String.eqb (errorMessage e) ""); reflexivity.
Qed.

(** X16. After a response with a status in 200-299 no error block is
    drawn, and the response block is drawn only for a truthy body: for
    [null], [false] and the empty string nothing appears in its place, and
    for a zero the text of the number does. *)
Theorem response_block_needs_a_truthy_body :
  forall env v s r data,
  network env WEBHOOK_URL (request (payload v (clock env))) = Resolved r ->
  json_result r = Parsed data ->
  (200 <= status r <= 299)%N ->
  exists res,
    results (render (final_state env v s)) = Element res
    /\ error_block res = Hidden
    /\ (truthy (Some data) = true -> response_block res = Element data)
    /\ (data = JNull \/ data = JBool false \/ data = JStr "" ->
        response_block res = Hidden)
    /\ (forall n, data = JNum n -> number_is_zero n = true ->
        response_block res = AsText (number_to_string n)).
Proof.
  intros env v s r data H Hj Hst.
  assert (Hok : ok r = true).
  { unfold ok. apply andb_true_iff. split; apply N.leb_le; lia. }
  rewrite (final_succeeding env v data s (onSubmit_ok env v r data H Hj Hok)).
  eexists. split; [reflexivity|]. split; [reflexivity|].
  cbn [response_block webhookResponse]. unfold and_element.
  split; [|split].
  - intros Ht. now rewrite Ht.
  - intros [-> | [-> | ->]]; reflexivity.
  - intros n -> Hz. cbn. now rewrite Hz.
Qed.

End MoreSubmissionFacts.

(* ===================================================================== *)
(** ** The scenarios of the specification, run on the reference engine *)

#[local] Existing Instance reference_engine.

Example phone_13_digits_passes :
  formSchema {| template := "hello_world";
                phoneNumberId := "785310631336841";
                recipientPhone := "5599999999999" |} = [].
Proof. reflexivity. Qed.

Example phone_with_trailing_newline_fails :
  passes (recipientPhone_issues ("5599999999999" ++ String "010" "")) = false.
Proof. reflexivity. Qed.

Example typing_a_formatted_number :
  recipient_onChange "+55 (99) 99999-9999" = "5599999999999".
Proof. reflexivity. Qed.

(** Scenario C: "123" fails with the format message, and nothing is
    emitted. *)
Example scenario_C :
  let v := {| template := "hello_world";
              phoneNumberId := "785310631336841";
              recipientPhone := "123" |} in
  formSchema v = [(FRecipientPhone, msg_recipient_format)]
  /\ forall env, handleSubmit env v = ret tt.
Proof. split; reflexivity. Qed.

Example status_text_500 : status_text 500 = "500".
Proof. reflexivity. Qed.

Example to_string_of_an_array :
  to_string (JArr [JNum 1%Z; JNull; JArr [JStr "a"; JBool true]; JObj []])
  = Normal "1,,a,true,[object Object]".
Proof. reflexivity. Qed.

Example to_string_shadowed :
  to_string (JObj [("toString", JStr "x")])
  = Abrupt (ErrorInstance "Cannot convert object to primitive value").
Proof. reflexivity. Qed.

(** Scenario A, through C1: the payload of a valid submission. *)
Lemma C1_scenario_A_payload :
  let v := {| template := "hello_world";
              phoneNumberId := "785310631336841";
              recipientPhone := "5599999999999" |} in
  let env :=
    {| clock := "2025-03-01T12:00:00.000Z";
       network := fun _ _ =>
         Resolved {| status := 200;
                     json_result := Parsed (JObj [("message", JStr "ok")]) |}
    |} in
  passes (formSchema v) = true
  /\ sentPayload (replay (fst (handleSubmit env v)) initial_state)
     = JObj [ ("messaging_product", JStr "whatsapp");
              ("from_phone_number_id", JStr "785310631336841");
              ("to", JStr "5599999999999");
              ("type", JStr "template");
              ("template",
               JObj [ ("name", JStr "hello_world");
                      ("language", JObj [ ("code", JStr "en_US") ]) ]);
              ("debug",
               JObj [ ("ui_origin", JStr "lovable-web-sender");
                      ("sent_at", JStr "2025-03-01T12:00:00.000Z") ]) ].
Proof.
  split; [reflexivity|].
  apply (C1_payload_built_and_stored
           "hello_world" "785310631336841" "5599999999999"
           "2025-03-01T12:00:00.000Z"
           (fun _ _ =>
              Resolved {| status := 200;
                          json_result := Parsed (JObj [("message", JStr "ok")]) |})
           initial_state).
  reflexivity.
Defined.

(** C3 as stated fails: values outside the configured lists pass the
    schema, and the POST is issued for them. *)
Lemma C3_unlisted_values_pass_the_schema :
  let v := {| template := "not_configured";
              phoneNumberId := "000";
              recipientPhone := "5599999999999" |} in
  let env := {| clock := "2025-03-01T12:00:00.000Z";
                network := fun _ _ => Rejected NotAnError |} in
  ~ In (template v) (map value TEMPLATES)
  /\ ~ In (phoneNumberId v) (map value PHONE_IDS)
  /\ passes (formSchema v) = true
  /\ In (Fetch WEBHOOK_URL (request (payload v (clock env))))
        (fst (handleSubmit env v)).
Proof.
  cbv zeta. split; [|split; [|split]].
  - simpl. intros [H | [H | [H | []]]]; discriminate.
  - simpl. intros [H | [H | []]]; discriminate.
  - reflexivity.
  - cbn. do 5 right. left. reflexivity.
Qed.

(** Scenario B, through C4: status 500 with a message. *)
Lemma C4_scenario_B :
  let v := {| template := "hello_world";
              phoneNumberId := "785310631336841";
              recipientPhone := "5599999999999" |} in
  let r := {| status := 500;
              json_result :=
                Parsed (JObj [("message", JStr "internal failure")]) |} in
  let env := {| clock := "2025-03-01T12:00:00.000Z";
                network := fun _ _ => Resolved r |} in
  ~ (200 <= status r <= 299)%N
  /\ error (final_state env v initial_state) = Some "internal failure"
  /\ webhookResponse (final_state env v initial_state) = JNull
  /\ sentPayload (final_state env v initial_state) = payload v (clock env).
Proof.
  cbv zeta.
  set (v := {| template := "hello_world";
               phoneNumberId := "785310631336841";
               recipientPhone := "5599999999999" |}).
  set (r := {| status := 500;
               json_result :=
                 Parsed (JObj [("message", JStr "internal failure")]) |}).
  set (env := {| clock := "2025-03-01T12:00:00.000Z";
                 network := fun _ _ => Resolved r |}).
  assert (Hst : ~ (200 <= status r <= 299)%N) by (simpl; lia).
  split; [exact Hst|].
  destruct (C4_http_failure_error_text env v initial_state r _
              eq_refl eq_refl Hst) as (Hw & Hp & _ & Hmsg & _).
  split; [|split; [exact Hw | exact Hp]].
  apply (Hmsg [("message", JStr "internal failure")] "internal failure");
    [reflexivity | reflexivity | discriminate].
Defined.

(** C4 as stated fails: a [message] that is present but empty is not the
    error; the status text is. *)
Lemma C4_empty_message_is_not_the_error :
  let v := {| template := "hello_world";
              phoneNumberId := "785310631336841";
              recipientPhone := "5599999999999" |} in
  let fields := [("message", JStr "")] in
  let env := {| clock := "2025-03-01T12:00:00.000Z";
                network := fun _ _ =>
                  Resolved {| status := 500;
                              json_result := Parsed (JObj fields) |} |} in
  own_property "message" fields = Some (JStr "")
  /\ error (final_state env v initial_state) = Some "Erro: 500"
  /\ error (final_state env v initial_state) <> Some "".
Proof.
  cbv zeta. split; [reflexivity | split; [reflexivity | discriminate]].
Qed.

(** Scenario A, through C5: status 200 with a JSON body. *)
Lemma C5_scenario_A :
  let v := {| template := "hello_world";
              phoneNumberId := "785310631336841";
              recipientPhone := "5599999999999" |} in
  let r := {| status := 200;
              json_result := Parsed (JObj [("message", JStr "ok")]) |} in
  let env := {| clock := "2025-03-01T12:00:00.000Z";
                network := fun _ _ => Resolved r |} in
  (200 <= status r <= 299)%N
  /\ webhookResponse (final_state env v initial_state)
     = JObj [("message", JStr "ok")]
  /\ error (final_state env v initial_state) = None.
Proof.
  cbv zeta. split; [simpl; lia|].
  apply (C5_success_stores_body
           {| clock := "2025-03-01T12:00:00.000Z";
              network := fun _ _ =>
                Resolved {| status := 200;
                            json_result :=
                              Parsed (JObj [("message", JStr "ok")]) |} |}
           {| template := "hello_world";
              phoneNumberId := "785310631336841";
              recipientPhone := "5599999999999" |}
           initial_state
           {| status := 200;
              json_result := Parsed (JObj [("message", JStr "ok")]) |}
           (JObj [("message", JStr "ok")]) eq_refl eq_refl).
  simpl. lia.
Defined.

(** Scenario D, through C6: the network call throws. *)
Lemma C6_scenario_D :
  let v := {| template := "hello_world";
              phoneNumberId := "785310631336841";
              recipientPhone := "5599999999999" |} in
  let env := {| clock := "2025-03-01T12:00:00.000Z";
                network := fun _ _ =>
                  Rejected (ErrorInstance "Failed to fetch") |} in
  network env WEBHOOK_URL (request (payload v (clock env)))
  = Rejected (ErrorInstance "Failed to fetch")
  /\ error (final_state env v initial_state) = Some "Failed to fetch"
  /\ isSubmitting (final_state env v initial_state) = false.
Proof.
  cbv zeta. split; [reflexivity|].
  destruct (C6_thrown_error_text
              {| clock := "2025-03-01T12:00:00.000Z";
                 network := fun _ _ =>
                   Rejected (ErrorInstance "Failed to fetch") |}
              {| template := "hello_world";
                 phoneNumberId := "785310631336841";
                 recipientPhone := "5599999999999" |}
              initial_state (ErrorInstance "Failed to fetch")
              (or_introl eq_refl)) as (Hmsg & _ & _ & Hsub & _).
  split; [apply Hmsg; reflexivity | exact Hsub].
Defined.

(** C6 as stated fails: an Error with an empty message leaves the empty
    string in [error], not the generic text. *)
Lemma C6_empty_error_message_is_kept :
  let v := {| template := "hello_world";
              phoneNumberId := "785310631336841";
              recipientPhone := "5599999999999" |} in
  let env := {| clock := "2025-03-01T12:00:00.000Z";
                network := fun _ _ => Rejected (ErrorInstance "") |} in
  error (final_state env v initial_state) = Some ""
  /\ error (final_state env v initial_state)
     <> Some "Erro desconhecido ao enviar".
Proof.
  cbv zeta. split; [reflexivity | discriminate].
Qed.

(** C9 as stated fails: a 200 response whose body is [null] ends the
    attempt with both [webhookResponse] and [error] null. *)
Lemma C9_null_body_leaves_both_null :
  let v := {| template := "hello_world";
              phoneNumberId := "785310631336841";
              recipientPhone := "5599999999999" |} in
  let env := {| clock := "2025-03-01T12:00:00.000Z";
                network := fun _ _ =>
                  Resolved {| status := 200; json_result := Parsed JNull |} |} in
  snd (onSubmit env v) = Normal tt
  /\ webhookResponse (final_state env v initial_state) = JNull
  /\ error (final_state env v initial_state) = None.
Proof.
  cbv zeta. repeat split.
Qed.

(** C10 at work: status 503 with an empty [message]. *)
Lemma C10_empty_message_503 :
  let v := {| template := "order_update";
              phoneNumberId := "123456789012345";
              recipientPhone := "551199999999" |} in
  let fields := [("code", JNum 7%Z); ("message", JStr "")] in
  let r := {| status := 503; json_result := Parsed (JObj fields) |} in
  let env := {| clock := "2025-03-01T12:00:00.000Z";
                network := fun _ _ => Resolved r |} in
  ~ (200 <= status r <= 299)%N
  /\ own_property "message" fields = Some (JStr "")
  /\ truthy (Some (JStr "")) = false
  /\ error (final_state env v initial_state) = Some "Erro: 503".
Proof.
  cbv zeta.
  assert (Hst : ~ (200 <= 503 <= 299)%N) by lia.
  split; [exact Hst | split; [reflexivity | split; [reflexivity|]]].
  apply (C10_falsy_message_gives_status_text (E := reference_engine)
           {| clock := "2025-03-01T12:00:00.000Z";
              network := fun _ _ =>
                Resolved {| status := 503;
                            json_result :=
                              Parsed (JObj [("code", @JNum reference_engine 7%Z);
                                            ("message", JStr "")]) |} |}
           {| template := "order_update";
              phoneNumberId := "123456789012345";
              recipientPhone := "551199999999" |}
           initial_state
           {| status := 503;
              json_result :=
                Parsed (JObj [("code", @JNum reference_engine 7%Z); ("message", JStr "")]) |}
           [("code", @JNum reference_engine 7%Z); ("message", JStr "")]
           (JStr "") eq_refl eq_refl Hst eq_refl eq_refl).
Defined.

(* ===================================================================== *)
(** ** The further properties at work *)

(** X2 at work: a dash typed after "5511" changes nothing. *)
Lemma typing_a_dash :
  digits_only "5511" /\ recipient_onChange ("5511" ++ "-") = "5511".
Proof.
  assert (H : digits_only "5511") by (repeat constructor).
  split; [exact H|].
  exact (typing_one_more_character "5511" "-" H).
Defined.

(** X6 at work: a form filled in with a formatted number. *)
Lemma request_of_a_filled_form :
  let actions := [ PickTemplate 0;
                   TypeRecipient "+55 (11) 98765-4321";
                   PickPhoneId 1 ] in
  let env := {| clock := "2025-03-01T12:00:00.000Z";
                network := fun _ _ => Rejected NotAnError |} in
  let init := request (payload (form_after actions) (clock env)) in
  In (Fetch WEBHOOK_URL init) (fst (handleSubmit env (form_after actions)))
  /\ form_after actions
     = {| template := "hello_world";
          phoneNumberId := "123456789012345";
          recipientPhone := "5511987654321" |}
  /\ In (template (form_after actions)) (map value TEMPLATES)
  /\ In (phoneNumberId (form_after actions)) (map value PHONE_IDS)
  /\ is_55_then_digits (recipientPhone (form_after actions)).
Proof.
  cbv zeta.
  set (actions := [ PickTemplate 0;
                    TypeRecipient "+55 (11) 98765-4321";
                    PickPhoneId 1 ]).
  set (env := {| clock := "2025-03-01T12:00:00.000Z";
                 network := fun _ _ => Rejected NotAnError |}).
  assert (Hin : In (Fetch WEBHOOK_URL
                      (request (payload (form_after actions) (clock env))))
                   (fst (handleSubmit env (form_after actions)))).
  { assert (Hv : passes (formSchema (form_after actions)) = true)
      by (vm_compute; reflexivity).
    unfold handleSubmit. rewrite Hv.
    rewrite (onSubmit_rejected env (form_after actions) NotAnError eq_refl).
    unfold failing, opening, fst. do 5 right. left. reflexivity. }
  split; [exact Hin | split; [vm_compute; reflexivity|]].
  destruct (every_request_from_the_form env actions _ _ Hin)
    as (_ & _ & Ht & Hp & _ & Hr).
  auto.
Defined.

(** X11 at work: status 422 with a structured message. *)
Lemma structured_message_422 :
  let v := {| template := "hello_world";
              phoneNumberId := "785310631336841";
              recipientPhone := "5599999999999" |} in
  let inner := [("detail", JStr "recipient unknown")] in
  let fields := [("message", JObj inner)] in
  let r := {| status := 422; json_result := Parsed (JObj fields) |} in
  let env := {| clock := "2025-03-01T12:00:00.000Z";
                network := fun _ _ => Resolved r |} in
  ~ (200 <= status r <= 299)%N
  /\ own_property "message" fields = Some (JObj inner)
  /\ error (final_state env v initial_state) = Some "[object Object]".
Proof.
  cbv zeta.
  assert (Hst : ~ (200 <= 422 <= 299)%N) by lia.
  split; [exact Hst | split; [reflexivity|]].
  exact (object_message_is_not_readable (E := reference_engine)
           {| clock := "2025-03-01T12:00:00.000Z";
              network := fun _ _ =>
                Resolved
                  {| status := 422;
                     json_result :=
                       Parsed (JObj [("message",
                                      JObj [("detail",
                                             JStr "recipient unknown")])]) |}
           |}
           {| template := "hello_world";
              phoneNumberId := "785310631336841";
              recipientPhone := "5599999999999" |}
           initial_state
           {| status := 422;
              json_result :=
                Parsed (JObj [("message",
                               JObj [("detail", JStr "recipient unknown")])])
           |}
           [("message", JObj [("detail", JStr "recipient unknown")])]
           [("detail", JStr "recipient unknown")]
           eq_refl eq_refl Hst eq_refl).
Defined.

(** X15 at work: an Error without a message leaves no error block. *)
Lemma empty_error_text_draws_nothing :
  let v := {| template := "hello_world";
              phoneNumberId := "785310631336841";
              recipientPhone := "5599999999999" |} in
  let env := {| clock := "2025-03-01T12:00:00.000Z";
                network := fun _ _ => Rejected (ErrorInstance "") |} in
  error (final_state env v initial_state) = Some ""
  /\ exists r,
       results (render (final_state env v initial_state)) = Element r
       /\ payload_block r = Element (payload v (clock env))
       /\ response_block r = Hidden
       /\ error_block r = Hidden.
Proof.
  cbv zeta. split; [reflexivity|].
  exact (error_block_needs_a_text (E := reference_engine)
           {| clock := "2025-03-01T12:00:00.000Z";
              network := fun _ _ => Rejected (ErrorInstance "") |}
           {| template := "hello_world";
              phoneNumberId := "785310631336841";
              recipientPhone := "5599999999999" |}
           initial_state "" eq_refl).
Defined.

(** X16 at work: a 200 response whose body is the number 0. *)
Lemma zero_body_draws_its_text :
  let v := {| template := "hello_world";
              phoneNumberId := "785310631336841";
              recipientPhone := "5599999999999" |} in
  let r := {| status := 200; json_result := Parsed (JNum 0%Z) |} in
  let env := {| clock := "2025-03-01T12:00:00.000Z";
                network := fun _ _ => Resolved r |} in
  (200 <= status r <= 299)%N
  /\ exists res,
       results (render (final_state env v initial_state)) = Element res
       /\ response_block res = AsText "0".
Proof.
  cbv zeta.
  assert (Hst : (200 <= 200 <= 299)%N) by lia.
  split; [exact Hst|].
  destruct (response_block_needs_a_truthy_body (E := reference_engine)
              {| clock := "2025-03-01T12:00:00.000Z";
                 network := fun _ _ =>
                   Resolved {| status := 200;
                               json_result :=
                                 Parsed (@JNum reference_engine 0%Z) |} |}
              {| template := "hello_world";
                 phoneNumberId := "785310631336841";
                 recipientPhone := "5599999999999" |}
              initial_state
              {| status := 200;
                 json_result := Parsed (@JNum reference_engine 0%Z) |}
              (@JNum reference_engine 0%Z) eq_refl eq_refl Hst)
    as (res & Hres & _ & _ & _ & Hzero).
  exists res. split; [exact Hres|].
  exact (Hzero 0%Z eq_refl eq_refl).
Defined.
